(** * The native-messaging background script [add-on/background.js]

    The script is twenty lines of JavaScript run once when the extension's
    background context is created:

    - it opens a native-messaging port to the host ["beeves_speech_server"]
      and keeps it in the global variable [port];
    - it logs the port object and the string ['woot'];
    - it registers an arrow function on [port.onMessage] that logs
      ["Received: " + JSON.stringify(response)];
    - it registers an arrow function on [browser.browserAction.onClicked]
      that logs ["Sending:  ping"] and calls [port.postMessage("ping")].

    The embedding below is a shallow one.  The browser is a [World]: the
    global variable, the ports opened so far, the listeners registered on the
    two event sources, the chronological list of the calls the script has
    made, and the exceptions that escaped to the top level.  JavaScript code
    is a function from worlds to a completion (a value or a thrown exception)
    and a new world.  The calls that can fail ([connectNative], [postMessage]
    and [JSON.stringify]) consult a [Platform], over which the theorems are
    universally quantified. *)

From Stdlib Require Import List String Ascii Bool Arith ZArith Lia.
From Stdlib Require DecimalString.
Import ListNotations.
Local Open Scope string_scope.
Local Open Scope list_scope.
Set Warnings "-register-all,-abstract-large-number".

(** ** Strings *)

(** An ECMAScript string is a sequence of 16-bit code units, surrogates
    included, paired or not.  A code unit is held as its high and its low
    byte.  What is logged is text: it is held as the bytes of its UTF-8
    encoding, in a [string]. *)
Definition CodeUnit : Type := (ascii * ascii)%type.
Definition JSString : Type := list CodeUnit.

Definition code (u : CodeUnit) : N :=
  (256 * N_of_ascii (fst u) + N_of_ascii (snd u))%N.

(** A string literal of the script, one code unit per character. *)
Definition text (s : string) : JSString :=
  map (fun c => (zero, c)) (list_ascii_of_string s).
Coercion text : string >-> JSString.

Definition dquote : ascii := "034"%char.
Definition backslash : ascii := "092"%char.

Definition hex_digit (d : N) : ascii :=
  nth (N.to_nat d) (list_ascii_of_string "0123456789abcdef") "0"%char.

(** [\uxxxx], four lower-case hexadecimal digits (ECMA-262, UnicodeEscape). *)
Definition unicode_escape (n : N) : string :=
  String backslash
    (String "u"
       (String (hex_digit (n / 4096))
          (String (hex_digit ((n / 256) mod 16))
             (String (hex_digit ((n / 16) mod 16))
                (String (hex_digit (n mod 16)) ""))))).

Definition byte (n : N) : string := String (ascii_of_N n) "".

(** The UTF-8 encoding of a code point. *)
Definition utf8 (cp : N) : string :=
  (if cp <? 128 then byte cp
   else if cp <? 2048 then
     byte (192 + cp / 64) ++ byte (128 + cp mod 64)
   else if cp <? 65536 then
     byte (224 + cp / 4096) ++ byte (128 + (cp / 64) mod 64)
       ++ byte (128 + cp mod 64)
   else
     byte (240 + cp / 262144) ++ byte (128 + (cp / 4096) mod 64)
       ++ byte (128 + (cp / 64) mod 64) ++ byte (128 + cp mod 64))%N%string.

Definition is_lead (n : N) : bool := ((55296 <=? n) && (n <? 56320))%N.
Definition is_trail (n : N) : bool := ((56320 <=? n) && (n <? 57344))%N.

(** The code point of a surrogate pair. *)
Definition pair_code_point (lead trail : N) : N :=
  (65536 + (lead - 55296) * 1024 + (trail - 56320))%N.

(** The escape of one code point that is not a surrogate inside a JSON
    string literal (ECMA-262, QuoteJSONString): the seven two-character
    escapes, [\u00xx] for the other control characters, the character itself
    otherwise. *)
Definition quote_code_point (n : N) : string :=
  (if n =? 8 then String backslash "b"
   else if n =? 9 then String backslash "t"
   else if n =? 10 then String backslash "n"
   else if n =? 12 then String backslash "f"
   else if n =? 13 then String backslash "r"
   else if n =? 34 then String backslash (String dquote "")
   else if n =? 92 then String backslash (String backslash "")
   else if n <? 32 then unicode_escape n
   else utf8 n)%N.

(** The code points of the string in turn: a lead surrogate directly
    followed by a trail surrogate is one character, kept as it is; any other
    surrogate is alone and escaped. *)
Fixpoint quote_code_units (s : JSString) : string :=
  match s with
  | [] => ""
  | u :: rest =>
      if is_lead (code u) then
        match rest with
        | v :: rest' =>
            if is_trail (code v)
            then (utf8 (pair_code_point (code u) (code v))
                    ++ quote_code_units rest')%string
            else (unicode_escape (code u) ++ quote_code_units rest)%string
        | [] => unicode_escape (code u)
        end
      else if is_trail (code u) then
        (unicode_escape (code u) ++ quote_code_units rest)%string
      else (quote_code_point (code u) ++ quote_code_units rest)%string
  end.

Definition QuoteJSONString (s : JSString) : string :=
  String dquote (quote_code_units s ++ String dquote "")%string.

(** ** JSON values and [JSON.stringify] *)

Section Script.

(** ECMAScript numbers are IEEE doubles and [Number::toString] is a primitive
    of the engine; the development is parametric in both. *)
Variable Number : Type.
Variable Number_toString : Number -> string.

(** A message is a JSON value.  [JObj] lists the own enumerable properties of
    the object in the engine's enumeration order. *)
Inductive JSON : Type :=
| JNull
| JBool (b : bool)
| JNum (n : Number)
| JStr (s : JSString)
| JArr (elements : list JSON)
| JObj (properties : list (JSString * JSON)).

(** [Array.prototype.join] on already rendered parts. *)
Fixpoint join (sep : string) (parts : list string) : string :=
  match parts with
  | [] => ""
  | [p] => p
  | p :: rest => (p ++ sep ++ join sep rest)%string
  end.

(** The text [JSON.stringify(value)] returns, with neither replacer nor
    indentation, when it returns. *)
Fixpoint JSON_stringify (v : JSON) : string :=
  match v with
  | JNull => "null"
  | JBool true => "true"
  | JBool false => "false"
  | JNum n => Number_toString n
  | JStr s => QuoteJSONString s
  | JArr elements =>
      ("[" ++ join "," (map JSON_stringify elements) ++ "]")%string
  | JObj properties =>
      ("{" ++ join ","
                (map (fun '(key, value) =>
                        (QuoteJSONString key ++ ":" ++ JSON_stringify value)%string)
                     properties)
           ++ "}")%string
  end.

(** How deep a value is nested: 0 for a scalar, one more than its deepest
    member for an array or an object. *)
Fixpoint depth (v : JSON) : nat :=
  match v with
  | JArr elements =>
      S (fold_right (fun element d => Nat.max (depth element) d) 0 elements)
  | JObj properties =>
      S (fold_right (fun '(_, value) d => Nat.max (depth value) d) 0 properties)
  | _ => 0
  end.

(** [n] arrays inside one another, around [null]. *)
Definition nested_arrays (n : nat) : JSON :=
  Nat.iter n (fun v => JArr [v]) JNull.

(** ** The browser seen from the script *)

(** A port object is identified by the order in which the platform created
    it: the first port opened is port [0]. *)
Definition Port : Type := nat.

Inductive Exn : Type :=
| TypeError (message : string)
| RangeError (message : string)
| InternalError (message : string)
| PlatformError (message : string).

(** What [console.log] is given in this script: the value of the variable
    [port] (a port object, or [undefined] before the assignment) or a
    string. *)
Inductive Value : Type :=
| VUndefined
| VPort (p : Port)
| VString (s : string).

(** The two arrow functions of the script, as closures the platform stores
    and calls back. *)
Inductive MessageListener : Type := onMessage_listener.
Inductive ClickedListener : Type := onClicked_listener.

(** The calls the script makes: to the browser, and to [JSON.stringify]. *)
Inductive Call : Type :=
| JSON_stringify_call (value : JSON)
| connectNative_call (application : string)
| console_log_call (v : Value)
| onMessage_addListener_call (p : Port) (f : MessageListener)
| onClicked_addListener_call (f : ClickedListener)
| postMessage_call (p : Port) (message : JSON).

(** A call together with how it completed: [None] when it returned, [Some e]
    when it threw [e]. *)
Record Entry : Type := mkEntry { call : Call; thrown : option Exn }.

(** Whether [connectNative] and [postMessage] throw, given everything the
    script has done so far.  [console.log] and [addListener] do not throw.
    The trace grows with every call, so each call of an execution is asked
    about with a history of its own: any pattern of failures an execution can
    show, whatever its cause (a missing host, a disconnection), is the
    behaviour of some [Platform].

    [JSON.stringify] is recursive in the engine: it calls itself for each
    member of an array or of an object, and throws when the stack is
    exhausted ([RangeError] "Maximum call stack size exceeded" in V8,
    [InternalError] "too much recursion" in SpiderMonkey).  A listener starts
    on an empty stack, so the engine is described by [stack_limit], the
    number of levels [JSON.stringify] can go down below the outermost one,
    and by [stack_error], what it throws beyond that. *)
Record Platform : Type := mkPlatform {
  connect_error : list Entry -> string -> option Exn;
  post_error : list Entry -> Port -> JSON -> option Exn;
  stack_limit : nat;
  stack_error : Exn
}.

(** A platform on which neither [connectNative] nor [postMessage] throws. *)
Definition reliable : Platform :=
  {| connect_error := fun _ _ => None; post_error := fun _ _ _ => None;
     stack_limit := 3000;
     stack_error := InternalError "too much recursion" |}.

Record World : Type := mkWorld {
  port : option Port;                              (* [var port] *)
  ports_opened : nat;                              (* ports created so far *)
  onMessage : list (Port * MessageListener);       (* [p.onMessage] listeners *)
  onClicked : list ClickedListener;                (* [browserAction.onClicked] *)
  trace : list Entry;                              (* see [record_call] *)
  uncaught : list Exn                              (* exceptions nobody caught *)
}.

Definition initial : World :=
  {| port := None; ports_opened := 0; onMessage := []; onClicked := [];
     trace := []; uncaught := [] |}.

(** The trace lists, oldest first, the calls to the browser with their
    outcome, and the calls to [JSON.stringify] that threw: a call to
    [JSON.stringify] that returns has no effect outside the script. *)
Definition record_call (c : Call) (r : option Exn) (w : World) : World :=
  {| port := port w; ports_opened := ports_opened w;
     onMessage := onMessage w; onClicked := onClicked w;
     trace := trace w ++ [mkEntry c r]; uncaught := uncaught w |}.

(** ** JavaScript code as world transformers *)

Inductive Completion (A : Type) : Type :=
| Normal (a : A)
| Throw (e : Exn).
Arguments Normal {A} a.
Arguments Throw {A} e.

Definition JS (A : Type) : Type := World -> Completion A * World.

(** Sequencing: with no [try] around it, a thrown exception skips the rest. *)
Definition bind {A B : Type} (m : JS A) (k : A -> JS B) : JS B :=
  fun w =>
    match m w with
    | (Normal a, w') => k a w'
    | (Throw e, w') => (Throw e, w')
    end.

Notation "x <- m ;; k" := (bind m (fun x => k))
  (at level 61, m at next level, right associativity).
Notation "m ;; k" := (bind m (fun _ => k))
  (at level 61, right associativity).

Variable platform : Platform.

(** [browser.runtime.connectNative(application)]: a fresh port, or an
    exception. *)
Definition connectNative (application : string) : JS Port :=
  fun w =>
    match connect_error platform (trace w) application with
    | Some e => (Throw e, record_call (connectNative_call application) (Some e) w)
    | None =>
        let w' := record_call (connectNative_call application) None w in
        (Normal (ports_opened w),
         {| port := port w'; ports_opened := S (ports_opened w');
            onMessage := onMessage w'; onClicked := onClicked w';
            trace := trace w'; uncaught := uncaught w' |})
    end.

(** [console.log(v)]. *)
Definition console_log (v : Value) : JS unit :=
  fun w => (Normal tt, record_call (console_log_call v) None w).

(** [p.onMessage.addListener(f)]. *)
Definition onMessage_addListener (p : Port) (f : MessageListener) : JS unit :=
  fun w =>
    let w' := record_call (onMessage_addListener_call p f) None w in
    (Normal tt,
     {| port := port w'; ports_opened := ports_opened w';
        onMessage := onMessage w' ++ [(p, f)]; onClicked := onClicked w';
        trace := trace w'; uncaught := uncaught w' |}).

(** [browser.browserAction.onClicked.addListener(f)]. *)
Definition onClicked_addListener (f : ClickedListener) : JS unit :=
  fun w =>
    let w' := record_call (onClicked_addListener_call f) None w in
    (Normal tt,
     {| port := port w'; ports_opened := ports_opened w';
        onMessage := onMessage w'; onClicked := onClicked w' ++ [f];
        trace := trace w'; uncaught := uncaught w' |}).

(** [p.postMessage(message)]. *)
Definition postMessage (p : Port) (message : JSON) : JS unit :=
  fun w =>
    match post_error platform (trace w) p message with
    | Some e => (Throw e, record_call (postMessage_call p message) (Some e) w)
    | None => (Normal tt, record_call (postMessage_call p message) None w)
    end.

(** [JSON.stringify(value)]: its text, or the engine's exception when
    [value] is nested deeper than the stack allows. *)
Definition call_JSON_stringify (value : JSON) : JS string :=
  fun w =>
    if (S (stack_limit platform) <? depth value)%nat
    then (Throw (stack_error platform),
          record_call (JSON_stringify_call value) (Some (stack_error platform)) w)
    else (Normal (JSON_stringify value), w).

(** [var port = v]. *)
Definition assign_port (p : Port) : JS unit :=
  fun w =>
    (Normal tt,
     {| port := Some p; ports_opened := ports_opened w;
        onMessage := onMessage w; onClicked := onClicked w;
        trace := trace w; uncaught := uncaught w |}).

(** The value of the expression [port]. *)
Definition read_port : JS Value :=
  fun w =>
    (Normal (match port w with Some p => VPort p | None => VUndefined end), w).

(** The object of a member access [port.m]: a [TypeError] when the variable
    is still [undefined]. *)
Definition port_object : JS Port :=
  fun w =>
    match port w with
    | Some p => (Normal p, w)
    | None => (Throw (TypeError "port is undefined"), w)
    end.

(** ** The script *)

(** Lines 10-12: [(response) => { console.log("Received: " +
    JSON.stringify(response)); }]. *)
Definition onMessage_body (response : JSON) : JS unit :=
  serialized <- call_JSON_stringify response ;;
  console_log (VString ("Received: " ++ serialized)%string).

(** Lines 17-20: [() => { console.log("Sending:  ping");
    port.postMessage("ping"); }]. *)
Definition onClicked_body : JS unit :=
  console_log (VString "Sending:  ping") ;;
  p <- port_object ;;
  postMessage p (JStr "ping").

(** Lines 4-20, the top level of the script. *)
Definition background : JS unit :=
  p <- connectNative "beeves_speech_server" ;;
  assign_port p ;;
  v <- read_port ;;
  console_log v ;;
  console_log (VString "woot") ;;
  p <- port_object ;;
  onMessage_addListener p onMessage_listener ;;
  onClicked_addListener onClicked_listener.

(** ** The event loop *)

Inductive Event : Type :=
| Message (p : Port) (m : JSON)     (* the host wrote [m] on port [p] *)
| Click                             (* the toolbar icon was clicked *)
| Disconnect (p : Port).            (* the host of port [p] went away *)

Definition call_message_listener (f : MessageListener) (m : JSON) : JS unit :=
  match f with onMessage_listener => onMessage_body m end.

Definition call_clicked_listener (f : ClickedListener) : JS unit :=
  match f with onClicked_listener => onClicked_body end.

(** One activation started by the platform: an exception that reaches it is
    uncaught, and the platform only takes note of it. *)
Definition top_level (code : JS unit) (w : World) : World :=
  match code w with
  | (Normal _, w') => w'
  | (Throw e, w') =>
      {| port := port w'; ports_opened := ports_opened w';
         onMessage := onMessage w'; onClicked := onClicked w';
         trace := trace w'; uncaught := uncaught w' ++ [e] |}
  end.

Definition listeners_on (p : Port) (ls : list (Port * MessageListener))
  : list MessageListener :=
  map snd (filter (fun pf => (fst pf =? p)%nat) ls).

(** The platform delivers an event to the listeners registered for it, in
    order of registration.  The script registers nothing on
    [port.onDisconnect], so a disconnection runs no code of the script. *)
Definition dispatch (ev : Event) (w : World) : World :=
  match ev with
  | Message p m =>
      fold_left (fun w' f => top_level (call_message_listener f m) w')
                (listeners_on p (onMessage w)) w
  | Click =>
      fold_left (fun w' f => top_level (call_clicked_listener f) w')
                (onClicked w) w
  | Disconnect _ => w
  end.

(** Loading the extension runs the script once. *)
Definition load : World := top_level background initial.

(** An execution: the load, then the events in the order the platform
    delivers them. *)
Definition run (events : list Event) : World :=
  fold_left (fun w ev => dispatch ev w) events load.

(** The message of the specification's scenario, [{"status":"ok"}]. *)
Definition status_ok : JSON := JObj [(text "status", JStr "ok")].

(** ** Observations on worlds *)

(** The calls the script has made, oldest first. *)
Definition calls (w : World) : list Call := map call (trace w).

Definition is_connect (c : Call) : bool :=
  match c with connectNative_call _ => true | _ => false end.

Definition is_send (c : Call) : bool :=
  match c with postMessage_call _ _ => true | _ => false end.

(** The port a send goes out on. *)
Definition send_port (c : Call) : option Port :=
  match c with postMessage_call p _ => Some p | _ => None end.

(** The values given to [console.log], oldest first. *)
Fixpoint logged (cs : list Call) : list Value :=
  match cs with
  | [] => []
  | console_log_call v :: rest => v :: logged rest
  | _ :: rest => logged rest
  end.

(** The exceptions the platform threw at the script, oldest first. *)
Fixpoint thrown_in (tr : list Entry) : list Exn :=
  match tr with
  | [] => []
  | en :: rest =>
      match thrown en with
      | Some e => e :: thrown_in rest
      | None => thrown_in rest
      end
  end.

(** The calls made between world [w] and a later world [w']. *)
Definition emitted (w w' : World) : list Call :=
  skipn (List.length (calls w)) (calls w').

Definition is_message (ev : Event) : bool :=
  match ev with Message _ _ => true | _ => false end.

Definition is_click (ev : Event) : bool :=
  match ev with Click => true | _ => false end.

(** What the script does not touch when it handles an event. *)
Definition frame (w : World)
  : option Port * nat * list (Port * MessageListener) * list ClickedListener :=
  (port w, ports_opened w, onMessage w, onClicked w).

(** ** What the statements below refer to *)

(** The entry of the click listener's log line. *)
Definition sending : Entry :=
  mkEntry (console_log_call (VString "Sending:  ping")) None.

(** The world after a call to [JSON.stringify] threw in a listener. *)
Definition stringify_failed (m : JSON) (w : World) : World :=
  {| port := port w; ports_opened := ports_opened w;
     onMessage := onMessage w; onClicked := onClicked w;
     trace := trace w ++ [mkEntry (JSON_stringify_call m) (Some (stack_error platform))];
     uncaught := uncaught w ++ [stack_error platform] |}.

(** The calls of a load that goes through, lines 4 to 20 in order. *)
Definition startup_calls : list Call :=
  [connectNative_call "beeves_speech_server";
   console_log_call (VPort 0);
   console_log_call (VString "woot");
   onMessage_addListener_call 0 onMessage_listener;
   onClicked_addListener_call onClicked_listener].

(** The frame the load leaves when it goes through: [port] holds the first
    port, and one listener is registered on each event source. *)
Definition connected_frame
  : option Port * nat * list (Port * MessageListener) * list ClickedListener :=
  (Some 0, 1, [(0, onMessage_listener)], [onClicked_listener]).

(** The calls one event makes the script's listeners perform. *)
Definition response (ev : Event) : list Call :=
  match ev with
  | Message 0 m =>
      if (S (stack_limit platform) <? depth m)%nat
      then [JSON_stringify_call m]
      else [console_log_call (VString ("Received: " ++ JSON_stringify m)%string)]
  | Message (S _) _ => []
  | Click =>
      [console_log_call (VString "Sending:  ping");
       postMessage_call 0 (JStr "ping")]
  | Disconnect _ => []
  end.

(** Instances: integers as numbers, printed in decimal; a platform on which
    the native application is not registered; a platform whose channel is
    closed, so that every send throws; and two engines, one with a shallow
    stack and one with a deep stack. *)
Definition Z_toString (z : Z) : string :=
  DecimalString.NilZero.string_of_int (Z.to_int z).

Definition host_missing : Platform :=
  {| connect_error := fun _ _ => Some (PlatformError "No such native application");
     post_error := fun _ _ _ => None;
     stack_limit := 3000;
     stack_error := InternalError "too much recursion" |}.

Definition channel_closed : Platform :=
  {| connect_error := fun _ _ => None;
     post_error := fun _ _ _ =>
       Some (PlatformError "Attempt to postMessage on disconnected port");
     stack_limit := 3000;
     stack_error := InternalError "too much recursion" |}.

Definition shallow_stack : Platform :=
  {| connect_error := fun _ _ => None; post_error := fun _ _ _ => None;
     stack_limit := 3000;
     stack_error := RangeError "Maximum call stack size exceeded" |}.

Definition deep_stack : Platform :=
  {| connect_error := fun _ _ => None; post_error := fun _ _ _ => None;
     stack_limit := 50000;
     stack_error := RangeError "Maximum call stack size exceeded" |}.

(** ** Basic facts *)

Lemma emitted_app (w w' : World) (new : list Entry) :
  trace w' = trace w ++ new -> emitted w w' = map call new.
Proof.
  intros H. unfold emitted, calls. rewrite H, map_app.
  rewrite skipn_app, skipn_all, Nat.sub_diag. reflexivity.
Qed.

Lemma thrown_in_app (tr1 tr2 : list Entry) :
  thrown_in (tr1 ++ tr2) = thrown_in tr1 ++ thrown_in tr2.
Proof.
  induction tr1 as [|en tr1 IH]; simpl; [reflexivity|].
  destruct (thrown en); simpl; now rewrite IH.
Qed.

(** The message listener, whatever the world: one [console.log] when
    [JSON.stringify] returns, its exception uncaught and nothing else when it
    throws. *)
Lemma onMessage_listener_runs (f : MessageListener) (m : JSON) (w : World) :
  top_level (call_message_listener f m) w =
  if (S (stack_limit platform) <? depth m)%nat
  then stringify_failed m w
  else record_call
         (console_log_call (VString ("Received: " ++ JSON_stringify m)%string))
         None w.
Proof.
  destruct f.
  unfold top_level, call_message_listener, onMessage_body, bind,
    call_JSON_stringify.
  destruct (S (stack_limit platform) <? depth m)%nat; reflexivity.
Qed.

(** The click listener in a world where [port] holds [p]: the log line, then
    the send, whose exception (if any) reaches the top level. *)
Lemma onClicked_listener_runs (f : ClickedListener) (p : Port) (w : World) :
  port w = Some p ->
  let r := post_error platform (trace w ++ [sending]) p (JStr "ping") in
  top_level (call_clicked_listener f) w =
  {| port := port w; ports_opened := ports_opened w;
     onMessage := onMessage w; onClicked := onClicked w;
     trace := (trace w ++ [sending]) ++ [mkEntry (postMessage_call p (JStr "ping")) r];
     uncaught := uncaught w ++ match r with Some e => [e] | None => [] end |}.
Proof.
  intros Hp r. destruct f.
  unfold top_level, call_clicked_listener, onClicked_body, bind, console_log,
    port_object, postMessage.
  cbn [record_call port trace ports_opened onMessage onClicked uncaught].
  rewrite Hp. subst r. unfold sending.
  destruct (post_error platform _ p (JStr "ping")) as [e|];
    unfold record_call;
    cbn [port trace ports_opened onMessage onClicked uncaught];
    rewrite ?Hp, ?app_nil_r; reflexivity.
Qed.

(** Handling an event leaves the variable [port], the set of ports and the
    registered listeners as they were, in every world. *)
Lemma top_level_message_frame (f : MessageListener) (m : JSON) (w : World) :
  frame (top_level (call_message_listener f m) w) = frame w.
Proof.
  rewrite onMessage_listener_runs.
  destruct (S (stack_limit platform) <? depth m)%nat; reflexivity.
Qed.

Lemma top_level_clicked_frame (f : ClickedListener) (w : World) :
  frame (top_level (call_clicked_listener f) w) = frame w.
Proof.
  destruct (port w) as [p|] eqn:Hp.
  - rewrite (onClicked_listener_runs f p w Hp). reflexivity.
  - destruct f.
    unfold top_level, call_clicked_listener, onClicked_body, bind, console_log,
      port_object.
    cbn [record_call port trace ports_opened onMessage onClicked uncaught].
    rewrite Hp. reflexivity.
Qed.

Lemma fold_frame {L : Type} (code : L -> JS unit) :
  (forall f w, frame (top_level (code f) w) = frame w) ->
  forall (l : list L) (w : World),
    frame (fold_left (fun w' f => top_level (code f) w') l w) = frame w.
Proof.
  intros Hstep l. induction l as [|f l IH]; intros w; simpl.
  - reflexivity.
  - rewrite IH. apply Hstep.
Qed.

Lemma dispatch_frame (ev : Event) (w : World) :
  frame (dispatch ev w) = frame w.
Proof.
  destruct ev as [p m| |p]; simpl.
  - apply (fold_frame (fun f => call_message_listener f m)).
    intros f w'. apply top_level_message_frame.
  - apply (fold_frame call_clicked_listener). apply top_level_clicked_frame.
  - reflexivity.
Qed.

Lemma run_snoc (events : list Event) (ev : Event) :
  run (events ++ [ev]) = dispatch ev (run events).
Proof. unfold run. now rewrite fold_left_app. Qed.

Lemma run_frame (events : list Event) : frame (run events) = frame load.
Proof.
  induction events as [|ev events IH] using rev_ind.
  - reflexivity.
  - rewrite run_snoc, dispatch_frame. exact IH.
Qed.

(** *** The load *)

Lemma load_connected :
  connect_error platform [] "beeves_speech_server" = None ->
  load =
  {| port := Some 0; ports_opened := 1;
     onMessage := [(0, onMessage_listener)]; onClicked := [onClicked_listener];
     trace := map (fun c => mkEntry c None) startup_calls; uncaught := [] |}.
Proof.
  intros H. unfold load, top_level, background, bind, connectNative.
  cbn [initial trace]. rewrite H. reflexivity.
Qed.

Lemma load_failed (e : Exn) :
  connect_error platform [] "beeves_speech_server" = Some e ->
  load =
  {| port := None; ports_opened := 0; onMessage := []; onClicked := [];
     trace := [mkEntry (connectNative_call "beeves_speech_server") (Some e)];
     uncaught := [e] |}.
Proof.
  intros H. unfold load, top_level, background, bind, connectNative.
  cbn [initial trace]. rewrite H. reflexivity.
Qed.

(** *** Events in a world without listeners *)

Lemma dispatch_no_listeners (ev : Event) (w : World) :
  onMessage w = [] -> onClicked w = [] -> dispatch ev w = w.
Proof.
  intros HM HC. destruct ev as [p m| |p]; simpl.
  - now rewrite HM.
  - now rewrite HC.
  - reflexivity.
Qed.

Lemma run_failed (e : Exn) (events : list Event) :
  connect_error platform [] "beeves_speech_server" = Some e ->
  run events = load.
Proof.
  intros H. induction events as [|ev events IH] using rev_ind.
  - reflexivity.
  - rewrite run_snoc, IH. apply dispatch_no_listeners;
      rewrite (load_failed e H); reflexivity.
Qed.

(** *** Events in a world where the load went through *)

Lemma dispatch_connected (ev : Event) (w : World) :
  frame w = connected_frame ->
  exists new : list Entry,
    trace (dispatch ev w) = trace w ++ new /\
    uncaught (dispatch ev w) = uncaught w ++ thrown_in new /\
    map call new = response ev.
Proof.
  unfold frame, connected_frame. intros H.
  injection H as Hport Hopened HM HC.
  destruct ev as [p m| |p]; cbn [dispatch].
  - rewrite HM. destruct p as [|p]; cbn [listeners_on filter map fst snd Nat.eqb fold_left].
    + rewrite onMessage_listener_runs. cbn [response].
      destruct (S (stack_limit platform) <? depth m)%nat;
        (eexists; split; [reflexivity|]; split; [|reflexivity]);
        cbn; [reflexivity|now rewrite app_nil_r].
    + exists []. cbn. now rewrite !app_nil_r.
  - rewrite HC. cbn [fold_left].
    rewrite (onClicked_listener_runs onClicked_listener 0 w Hport).
    cbn [trace uncaught]. rewrite <- app_assoc.
    eexists; split; [reflexivity|]. split; [|reflexivity].
    unfold sending. cbn [thrown_in thrown app].
    destruct (post_error platform _ 0 (JStr "ping")); reflexivity.
  - exists []. cbn. now rewrite !app_nil_r.
Qed.

Lemma run_connected_frame (events : list Event) :
  connect_error platform [] "beeves_speech_server" = None ->
  frame (run events) = connected_frame.
Proof.
  intros H. rewrite run_frame, (load_connected H). reflexivity.
Qed.

(** With the connection open, the calls of an execution are those of the
    load followed by the responses to the events, whatever the outcome of
    each send; and the uncaught exceptions are the thrown ones. *)
Lemma run_connected (events : list Event) :
  connect_error platform [] "beeves_speech_server" = None ->
  calls (run events) = startup_calls ++ flat_map response events /\
  uncaught (run events) = thrown_in (trace (run events)).
Proof.
  intros H. induction events as [|ev events [IHc IHu]] using rev_ind.
  - unfold run. cbn [fold_left]. rewrite (load_connected H). split; reflexivity.
  - rewrite run_snoc.
    destruct (dispatch_connected ev (run events) (run_connected_frame events H))
      as (new & Htr & Hun & Hcalls).
    split.
    + unfold calls in *. rewrite Htr, map_app, IHc, Hcalls.
      rewrite flat_map_app. cbn [flat_map]. now rewrite app_nil_r, app_assoc.
    + rewrite Hun, Htr, thrown_in_app, IHu. reflexivity.
Qed.

Lemma emitted_record_call (c : Call) (r : option Exn) (w : World) :
  emitted w (record_call c r w) = [c].
Proof. now rewrite (emitted_app w _ [mkEntry c r]). Qed.

Lemma emitted_stringify_failed (m : JSON) (w : World) :
  emitted w (stringify_failed m w) = [JSON_stringify_call m].
Proof.
  now rewrite (emitted_app w _ [mkEntry (JSON_stringify_call m)
                                  (Some (stack_error platform))]).
Qed.

Lemma emitted_event (ev : Event) (events : list Event) :
  connect_error platform [] "beeves_speech_server" = None ->
  emitted (run events) (dispatch ev (run events)) = response ev.
Proof.
  intros H.
  destruct (dispatch_connected ev (run events) (run_connected_frame events H))
    as (new & Htr & _ & Hc).
  now rewrite (emitted_app _ _ _ Htr).
Qed.

Lemma emitted_refl (w : World) : emitted w w = [].
Proof. unfold emitted. apply skipn_all. Qed.

Lemma response_connects (events : list Event) :
  filter is_connect (flat_map response events) = [].
Proof.
  induction events as [|ev events IH]; cbn [flat_map]; [reflexivity|].
  rewrite filter_app, IH, app_nil_r.
  destruct ev as [[|p] m| |p]; try reflexivity.
  cbn [response]. destruct (S (stack_limit platform) <? depth m)%nat; reflexivity.
Qed.

Lemma response_sends (events : list Event) :
  filter is_send (flat_map response events) =
  repeat (postMessage_call 0 (JStr "ping")) (List.length (filter is_click events)).
Proof.
  induction events as [|ev events IH]; cbn [flat_map]; [reflexivity|].
  rewrite filter_app, IH.
  destruct ev as [[|p] m| |p]; try reflexivity.
  cbn [response]. destruct (S (stack_limit platform) <? depth m)%nat; reflexivity.
Qed.

Lemma connect_cases :
  connect_error platform [] "beeves_speech_server" = None \/
  exists e, connect_error platform [] "beeves_speech_server" = Some e.
Proof.
  destruct (connect_error platform [] "beeves_speech_server") as [e|];
    [right; now exists e | now left].
Qed.

(** ** The properties of the specification *)

(** C1.  With the connection open, a click on the toolbar action makes the
    click listener log its line and perform exactly one send, on the port
    held by [port], with the payload ["ping"], whatever events (inbound
    messages included) came before it. *)
Theorem click_sends_ping_once (prior : list Event) :
  connect_error platform [] "beeves_speech_server" = None ->
  port (run prior) = Some 0 /\
  emitted (run prior) (dispatch Click (run prior)) =
    [console_log_call (VString "Sending:  ping");
     postMessage_call 0 (JStr "ping")] /\
  filter is_send (emitted (run prior) (dispatch Click (run prior))) =
    [postMessage_call 0 (JStr "ping")].
Proof.
  intros H.
  pose proof (run_connected_frame prior H) as Hf.
  destruct (dispatch_connected Click (run prior) Hf) as (new & Htr & _ & Hc).
  rewrite (emitted_app _ _ _ Htr), Hc.
  unfold frame, connected_frame in Hf. injection Hf as Hp _ _ _.
  split; [exact Hp|]. split; reflexivity.
Qed.

(** C2, amended.  With the connection open, the delivery on the connection
    of an inbound message [m] that [JSON.stringify] can serialize, that is, a
    message nested no deeper than the engine's stack allows, changes the
    world in one way only: one [console.log] entry is added, whose text is
    ["Received: "] followed by the serialization of [m].  When [m] is nested
    deeper, [JSON.stringify] throws: nothing is logged and the exception is
    uncaught.  Either way the message is not validated, transformed or
    filtered, and nothing else is called. *)
Theorem inbound_message_logged_unless_too_deep (prior : list Event) (m : JSON) :
  connect_error platform [] "beeves_speech_server" = None ->
  (depth m <= S (stack_limit platform) ->
   dispatch (Message 0 m) (run prior) =
     record_call
       (console_log_call (VString ("Received: " ++ JSON_stringify m)%string))
       None (run prior) /\
   emitted (run prior) (dispatch (Message 0 m) (run prior)) =
     [console_log_call (VString ("Received: " ++ JSON_stringify m)%string)]) /\
  (S (stack_limit platform) < depth m ->
   dispatch (Message 0 m) (run prior) =
     {| port := port (run prior); ports_opened := ports_opened (run prior);
        onMessage := onMessage (run prior); onClicked := onClicked (run prior);
        trace := trace (run prior)
                   ++ [mkEntry (JSON_stringify_call m) (Some (stack_error platform))];
        uncaught := uncaught (run prior) ++ [stack_error platform] |} /\
   logged (emitted (run prior) (dispatch (Message 0 m) (run prior))) = []).
Proof.
  intros H.
  pose proof (run_connected_frame prior H) as Hf.
  unfold frame, connected_frame in Hf. injection Hf as _ _ HM _.
  assert (Hd : dispatch (Message 0 m) (run prior) =
               top_level (call_message_listener onMessage_listener m) (run prior)).
  { cbn [dispatch]. rewrite HM. reflexivity. }
  rewrite Hd, onMessage_listener_runs. split.
  - intros Hfits. apply Nat.ltb_ge in Hfits. rewrite Hfits.
    split; [reflexivity|apply emitted_record_call].
  - intros Hdeep. apply Nat.ltb_lt in Hdeep. rewrite Hdeep.
    split; [reflexivity|]. now rewrite emitted_stringify_failed.
Qed.

(** C3.  The first call of the script is the connection request to
    ["beeves_speech_server"], and in every execution, under every platform,
    it is the only connection request. *)
Theorem one_connection_request (events : list Event) :
  hd_error (calls load) = Some (connectNative_call "beeves_speech_server") /\
  filter is_connect (calls (run events)) =
    [connectNative_call "beeves_speech_server"].
Proof.
  destruct connect_cases as [H|[e H]].
  - split.
    + rewrite (load_connected H). reflexivity.
    + destruct (run_connected events H) as [Hc _].
      rewrite Hc, filter_app, response_connects. reflexivity.
  - rewrite (run_failed e events H), (load_failed e H). split; reflexivity.
Qed.

(** C4.  No send happens but in response to a click: the load sends
    nothing, the message listener sends nothing in any world, the delivery of
    a message or a disconnection adds no send to an execution, and the sends
    of an execution are as many as its clicks (none when the connection
    could not be opened). *)
Theorem sends_only_on_click (events : list Event) :
  filter is_send (calls load) = [] /\
  (forall (f : MessageListener) (m : JSON) (w : World),
      filter is_send (emitted w (top_level (call_message_listener f m) w)) = []) /\
  (forall (p : Port) (m : JSON),
      filter is_send (emitted (run events) (dispatch (Message p m) (run events))) = []) /\
  (forall p : Port, dispatch (Disconnect p) (run events) = run events) /\
  List.length (filter is_send (calls (run events))) =
    match connect_error platform [] "beeves_speech_server" with
    | None => List.length (filter is_click events)
    | Some _ => 0
    end.
Proof.
  split; [|split; [|split; [|split]]].
  - destruct connect_cases as [H|[e H]].
    + rewrite (load_connected H). reflexivity.
    + rewrite (load_failed e H). reflexivity.
  - intros f m w. rewrite onMessage_listener_runs.
    destruct (S (stack_limit platform) <? depth m)%nat.
    + now rewrite emitted_stringify_failed.
    + now rewrite emitted_record_call.
  - intros p m. destruct connect_cases as [H|[e H]].
    + destruct (dispatch_connected (Message p m) (run events)
                  (run_connected_frame events H)) as (new & Htr & _ & Hc).
      rewrite (emitted_app _ _ _ Htr), Hc. destruct p; [|reflexivity].
      cbn [response]. destruct (S (stack_limit platform) <? depth m)%nat;
        reflexivity.
    + rewrite dispatch_no_listeners, emitted_refl; [reflexivity| |];
        rewrite (run_failed e events H), (load_failed e H); reflexivity.
  - reflexivity.
  - destruct connect_cases as [H|[e H]]; rewrite H.
    + destruct (run_connected events H) as [Hc _].
      rewrite Hc, filter_app, response_sends. cbn [filter startup_calls is_send app].
      apply repeat_length.
    + rewrite (run_failed e events H), (load_failed e H). reflexivity.
Qed.

(** C5.  The scenario "load, the host sends [{"status":"ok"}], the user
    clicks", with the connection open and the send going through: the script
    has connected to ["beeves_speech_server"], logged the line
    [Received: {"status":"ok"}], then logged [Sending:  ping] (two spaces)
    and posted ["ping"] on the port; nothing was thrown. *)
Theorem scenario_message_then_click :
  connect_error platform [] "beeves_speech_server" = None ->
  post_error platform (trace (run [Message 0 status_ok]) ++ [sending])
             0 (JStr "ping") = None ->
  trace (run [Message 0 status_ok; Click]) =
    map (fun c => mkEntry c None)
      [connectNative_call "beeves_speech_server";
       console_log_call (VPort 0);
       console_log_call (VString "woot");
       onMessage_addListener_call 0 onMessage_listener;
       onClicked_addListener_call onClicked_listener;
       console_log_call
         (VString ("Received: {" ++ String dquote "status" ++ String dquote ":"
                     ++ String dquote "ok" ++ String dquote "}")%string);
       console_log_call (VString "Sending:  ping");
       postMessage_call 0 (JStr "ping")] /\
  uncaught (run [Message 0 status_ok; Click]) = [].
Proof.
  intros H Hpost. unfold run in *. cbn [fold_left] in *.
  rewrite (load_connected H) in *.
  vm_compute in Hpost. vm_compute. rewrite Hpost. split; reflexivity.
Qed.

(** C6.  The scenario "the host sends no message and the user never
    clicks": the execution stays in the world the load left, so nothing is
    ever sent and the log holds the startup lines only, which are the port
    object and ['woot'] when the connection could be opened. *)
Theorem scenario_idle (events : list Event) :
  existsb is_message events = false ->
  existsb is_click events = false ->
  run events = load /\
  filter is_send (calls (run events)) = [] /\
  logged (calls (run events)) = logged (calls load) /\
  (connect_error platform [] "beeves_speech_server" = None ->
   logged (calls (run events)) = [VPort 0; VString "woot"]).
Proof.
  intros HM HC.
  assert (Hrun : run events = load).
  { unfold run. generalize load as w.
    induction events as [|ev events IH]; intros w; [reflexivity|].
    cbn [existsb] in HM, HC.
    apply orb_false_iff in HM as [HM1 HM2], HC as [HC1 HC2].
    destruct ev as [p m| |p]; try discriminate.
    cbn [fold_left dispatch]. now apply IH. }
  rewrite Hrun. split; [reflexivity|]. split; [|split; [reflexivity|]].
  - destruct connect_cases as [H|[e H]].
    + rewrite (load_connected H). reflexivity.
    + rewrite (load_failed e H). reflexivity.
  - intros H. rewrite (load_connected H). reflexivity.
Qed.

(** C7.  At most one connection exists at any point of any execution: no
    port exists before the load, the load opens one port (none when
    [connectNative] throws), no event opens or closes a port in any world,
    and [port] holds the one port opened, if any. *)
Theorem at_most_one_connection (events : list Event) :
  ports_opened initial = 0 /\
  ports_opened load =
    match connect_error platform [] "beeves_speech_server" with
    | None => 1
    | Some _ => 0
    end /\
  (forall (ev : Event) (w : World), ports_opened (dispatch ev w) = ports_opened w) /\
  ports_opened (run events) = ports_opened load /\
  ports_opened (run events) <= 1 /\
  port (run events) =
    match ports_opened (run events) with 0 => None | S _ => Some 0 end.
Proof.
  assert (Hstep : forall ev w, ports_opened (dispatch ev w) = ports_opened w).
  { intros ev w. pose proof (dispatch_frame ev w) as Hf.
    unfold frame in Hf. now injection Hf. }
  pose proof (run_frame events) as Hf. unfold frame in Hf.
  injection Hf as Hport Hopened _ _. rewrite Hport, Hopened.
  split; [reflexivity|]. split; [|split; [exact Hstep|split; [reflexivity|]]].
  - destruct connect_cases as [H|[e H]]; rewrite H.
    + rewrite (load_connected H). reflexivity.
    + rewrite (load_failed e H). reflexivity.
  - destruct connect_cases as [H|[e H]].
    + rewrite (load_connected H). cbn. split; [lia|reflexivity].
    + rewrite (load_failed e H). cbn. split; [lia|reflexivity].
Qed.

(** C8.  Nothing is caught.  In every execution the uncaught exceptions are
    the exceptions thrown at the script (by [connectNative], by
    [postMessage], by [JSON.stringify]), in order.  When [connectNative]
    throws, the script stops there for good: no log, no listener, no second
    attempt, whatever events follow.  When a send throws, the click listener
    stops there: the exception is uncaught and no call follows the failed
    send.  A disconnection runs no code.  And with the connection open the
    calls of an execution are a function of the events and of the engine's
    stack limit alone, the same whether sends fail or not. *)
Theorem failures_propagate_unhandled (events : list Event) :
  uncaught (run events) = thrown_in (trace (run events)) /\
  (forall e : Exn,
      connect_error platform [] "beeves_speech_server" = Some e ->
      run events =
        {| port := None; ports_opened := 0; onMessage := []; onClicked := [];
           trace := [mkEntry (connectNative_call "beeves_speech_server") (Some e)];
           uncaught := [e] |}) /\
  (forall e : Exn,
      connect_error platform [] "beeves_speech_server" = None ->
      post_error platform (trace (run events) ++ [sending]) 0 (JStr "ping") = Some e ->
      dispatch Click (run events) =
        {| port := port (run events); ports_opened := ports_opened (run events);
           onMessage := onMessage (run events); onClicked := onClicked (run events);
           trace := (trace (run events) ++ [sending])
                      ++ [mkEntry (postMessage_call 0 (JStr "ping")) (Some e)];
           uncaught := uncaught (run events) ++ [e] |}) /\
  (forall p : Port, dispatch (Disconnect p) (run events) = run events) /\
  (connect_error platform [] "beeves_speech_server" = None ->
   calls (run events) = startup_calls ++ flat_map response events).
Proof.
  split; [|split; [|split; [|split]]].
  - destruct connect_cases as [H|[e H]].
    + apply (run_connected events H).
    + rewrite (run_failed e events H), (load_failed e H). reflexivity.
  - intros e H. rewrite (run_failed e events H). apply (load_failed e H).
  - intros e H Hpost.
    pose proof (run_connected_frame events H) as Hf.
    unfold frame, connected_frame in Hf. injection Hf as Hp _ _ HC.
    cbn [dispatch]. rewrite HC at 1. cbn [fold_left].
    rewrite (onClicked_listener_runs onClicked_listener 0 (run events) Hp).
    rewrite Hpost. reflexivity.
  - reflexivity.
  - intros H. apply (run_connected events H).
Qed.

(** C10.  No listener assigns [port]: an event leaves the variable as it
    was in every world, so in every execution it holds what the load put
    there, and every send of the execution goes out on that port. *)
Theorem port_never_reassigned (events : list Event) :
  (forall (ev : Event) (w : World), port (dispatch ev w) = port w) /\
  port (run events) = port load /\
  map send_port (filter is_send (calls (run events))) =
    repeat (port load) (List.length (filter is_send (calls (run events)))).
Proof.
  split; [|split].
  - intros ev w. pose proof (dispatch_frame ev w) as Hf.
    unfold frame in Hf. now injection Hf.
  - pose proof (run_frame events) as Hf. unfold frame in Hf. now injection Hf.
  - destruct connect_cases as [H|[e H]].
    + destruct (run_connected events H) as [Hc _].
      rewrite Hc, filter_app, response_sends.
      cbn [filter startup_calls is_send app].
      rewrite map_repeat, repeat_length, (load_connected H). reflexivity.
    + rewrite (run_failed e events H), (load_failed e H). reflexivity.
Qed.

(** ** Further properties of the script *)

(** X1.  The listeners are registered once and for all by the load: no
    event adds or removes a listener in any world, so in every execution the
    port carries the one message listener and the toolbar action the one
    click listener of the load (none when [connectNative] threw). *)
Theorem listeners_registered_once (events : list Event) :
  (forall (ev : Event) (w : World),
      onMessage (dispatch ev w) = onMessage w /\
      onClicked (dispatch ev w) = onClicked w) /\
  onMessage (run events) =
    match connect_error platform [] "beeves_speech_server" with
    | None => [(0, onMessage_listener)]
    | Some _ => []
    end /\
  onClicked (run events) =
    match connect_error platform [] "beeves_speech_server" with
    | None => [onClicked_listener]
    | Some _ => []
    end.
Proof.
  split.
  - intros ev w. pose proof (dispatch_frame ev w) as Hf.
    unfold frame in Hf. injection Hf as _ _ HM HC. now split.
  - pose proof (run_frame events) as Hf. unfold frame in Hf.
    injection Hf as _ _ HM HC. rewrite HM, HC.
    destruct connect_cases as [H|[e H]]; rewrite H.
    + rewrite (load_connected H). split; reflexivity.
    + rewrite (load_failed e H). split; reflexivity.
Qed.

End Script.

Arguments JNull {Number}.
Arguments JBool {Number} b.
Arguments JNum {Number} n.
Arguments JStr {Number} s.
Arguments JArr {Number} elements.
Arguments JObj {Number} properties.
Arguments JSON_stringify {Number} Number_toString v.
Arguments connectNative_call {Number} application.
Arguments console_log_call {Number} v.
Arguments onMessage_addListener_call {Number} p f.
Arguments onClicked_addListener_call {Number} f.
Arguments postMessage_call {Number} p message.
Arguments mkEntry {Number} call thrown.
Arguments call {Number} e.
Arguments thrown {Number} e.
Arguments mkPlatform {Number} connect_error post_error stack_limit stack_error.
Arguments connect_error {Number} p.
Arguments post_error {Number} p.
Arguments reliable {Number}.
Arguments host_missing {Number}.
Arguments channel_closed {Number}.
Arguments mkWorld {Number} port ports_opened onMessage onClicked trace uncaught.
Arguments port {Number} w.
Arguments ports_opened {Number} w.
Arguments onMessage {Number} w.
Arguments onClicked {Number} w.
Arguments trace {Number} w.
Arguments uncaught {Number} w.
Arguments initial {Number}.
Arguments record_call {Number} c r w.
Arguments Normal {A} a.
Arguments Throw {A} e.
Arguments Message {Number} p m.
Arguments Click {Number}.
Arguments Disconnect {Number} p.
Arguments onMessage_body {Number} Number_toString platform response.
Arguments dispatch {Number} Number_toString platform ev w.
Arguments load {Number} platform.
Arguments run {Number} Number_toString platform events.
Arguments status_ok {Number}.
Arguments calls {Number} w.
Arguments is_connect {Number} c.
Arguments is_send {Number} c.
Arguments send_port {Number} c.
Arguments logged {Number} cs.
Arguments thrown_in {Number} tr.
Arguments emitted {Number} w w'.
Arguments is_message {Number} ev.
Arguments is_click {Number} ev.
Arguments frame {Number} w.
Arguments sending {Number}.
Arguments startup_calls {Number}.
Arguments response {Number} Number_toString platform ev.
Arguments JSON_stringify_call {Number} value.
Arguments depth {Number} v.
Arguments nested_arrays {Number} n.
Arguments stack_limit {Number} p.
Arguments stack_error {Number} p.
Arguments shallow_stack {Number}.
Arguments deep_stack {Number}.

(** ** Two executions *)


(** ** [JSON.stringify] on concrete values *)

Example stringify_status_ok :
  JSON_stringify Z_toString status_ok =
  ("{" ++ String dquote "status" ++ String dquote ":"
       ++ String dquote "ok" ++ String dquote "}")%string.
Proof. reflexivity. Qed.

Example stringify_array :
  JSON_stringify Z_toString
    (JArr [JNum 12%Z; JNum (-3)%Z; JNull; JBool true; JBool false;
           JArr []; JObj [];
           JObj [(text "a", JNum 0%Z); (text "b", JArr [JNull])]]) =
  ("[12,-3,null,true,false,[],{},{" ++ String dquote "a" ++ String dquote ":0,"
     ++ String dquote "b" ++ String dquote ":[null]}]")%string.
Proof. reflexivity. Qed.

(** A line feed, the character of code 1, a double quote and a backslash
    inside a string. *)
Example stringify_escapes :
  JSON_stringify Z_toString
    (JStr (String "010" (String "001" (String dquote (String backslash "z"))))) =
  String dquote
    (String backslash "n" ++ String backslash "u0001"
       ++ String backslash (String dquote "")
       ++ String backslash (String backslash "z")
       ++ String dquote "")%string.
Proof. reflexivity. Qed.

(** A lead surrogate alone, then a trail surrogate followed by a lead one:
    three lone surrogates, each escaped. *)
Example stringify_lone_surrogates :
  JSON_stringify Z_toString
    (JStr [("216"%char, "000"%char); ("120"%char, "120"%char);
           ("222"%char, "000"%char); ("216"%char, "061"%char)]) =
  String dquote
    (String backslash "ud800"
       ++ String "231" (String "161" (String "184" ""))
       ++ String backslash "ude00" ++ String backslash "ud83d"
       ++ String dquote "")%string.
Proof. reflexivity. Qed.

(** A surrogate pair (U+1F600), U+00E9, U+20AC and the line separator
    U+2028 are kept as they are; DEL is too. *)
Example stringify_characters_kept :
  JSON_stringify Z_toString
    (JStr [("216"%char, "061"%char); ("222"%char, "000"%char);
           ("000"%char, "233"%char); ("032"%char, "172"%char);
           ("032"%char, "040"%char); ("000"%char, "127"%char)]) =
  String dquote
    (String "240" (String "159" (String "152" (String "128"
       (String "195" (String "169"
          (String "226" (String "130" (String "172"
             (String "226" (String "128" (String "168"
                (String "127" (String dquote "")))))))))))))).
Proof. reflexivity. Qed.

(** What [depth] counts. *)
Example depth_status_ok : depth (@status_ok Z) = 1.
Proof. reflexivity. Qed.

Example depth_nested_arrays : depth (@nested_arrays Z 5000) = 5000.
Proof. vm_compute. reflexivity. Qed.

(** ** The statements at concrete executions *)

(** C1 at the execution "message, click, disconnection" followed by a
    click, on the reliable platform. *)
Lemma click_sends_ping_once_witness :
  connect_error (@reliable Z) [] "beeves_speech_server" = None /\
  filter is_send
    (emitted
       (run Z_toString reliable [Message 0 status_ok; Click; Disconnect 0])
       (dispatch Z_toString reliable Click
          (run Z_toString reliable [Message 0 status_ok; Click; Disconnect 0]))) =
    [postMessage_call 0 (JStr "ping")].
Proof.
  split; [reflexivity|].
  exact (proj2 (proj2 (click_sends_ping_once Z Z_toString reliable
                         [Message 0 status_ok; Click; Disconnect 0] eq_refl))).
Defined.

(** C2, as first stated, fails on an engine with a shallow stack at a
    message of 5000 arrays inside one another: the delivery logs nothing and
    leaves the engine's exception uncaught. *)
Lemma deep_message_not_logged :
  connect_error (@shallow_stack Z) [] "beeves_speech_server" = None /\
  logged
    (emitted (run Z_toString shallow_stack [])
       (dispatch Z_toString shallow_stack (Message 0 (nested_arrays 5000))
          (run Z_toString shallow_stack []))) = [] /\
  uncaught
    (dispatch Z_toString shallow_stack (Message 0 (nested_arrays 5000))
       (run Z_toString shallow_stack [])) =
    [RangeError "Maximum call stack size exceeded"].
Proof. vm_compute. repeat split. Qed.

(** C2, amended, at the delivery of [[1,null]] after a click on the platform
    whose channel is closed, and at the delivery of 5000 arrays inside one
    another on the engine with a shallow stack. *)
Lemma inbound_message_logged_unless_too_deep_witness :
  (connect_error (@channel_closed Z) [] "beeves_speech_server" = None /\
   depth (JArr [JNum 1%Z; JNull]) <= S (stack_limit (@channel_closed Z)) /\
   emitted (run Z_toString channel_closed [Click])
     (dispatch Z_toString channel_closed (Message 0 (JArr [JNum 1%Z; JNull]))
        (run Z_toString channel_closed [Click])) =
     [console_log_call (VString "Received: [1,null]")]) /\
  (connect_error (@shallow_stack Z) [] "beeves_speech_server" = None /\
   S (stack_limit (@shallow_stack Z)) < depth (@nested_arrays Z 5000) /\
   logged
     (emitted (run Z_toString shallow_stack [])
        (dispatch Z_toString shallow_stack (Message 0 (nested_arrays 5000))
           (run Z_toString shallow_stack []))) = []).
Proof.
  assert (Hfits : depth (JArr [JNum 1%Z; JNull]) <= S (stack_limit (@channel_closed Z))).
  { apply Nat.leb_le. vm_compute. reflexivity. }
  assert (Hdeep : S (stack_limit (@shallow_stack Z)) < depth (@nested_arrays Z 5000)).
  { apply Nat.ltb_lt. vm_compute. reflexivity. }
  split.
  - split; [reflexivity|]. split; [exact Hfits|].
    exact (proj2 (proj1 (inbound_message_logged_unless_too_deep Z Z_toString
                           channel_closed [Click] (JArr [JNum 1%Z; JNull])
                           eq_refl) Hfits)).
  - split; [reflexivity|]. split; [exact Hdeep|].
    exact (proj2 (proj2 (inbound_message_logged_unless_too_deep Z Z_toString
                           shallow_stack [] (nested_arrays 5000)
                           eq_refl) Hdeep)).
Defined.

(** C5 on the reliable platform. *)
Lemma scenario_message_then_click_witness :
  connect_error (@reliable Z) [] "beeves_speech_server" = None /\
  post_error (@reliable Z)
    (trace (run Z_toString reliable [Message 0 status_ok]) ++ [sending])
    0 (JStr "ping") = None /\
  logged (calls (run Z_toString reliable [Message 0 status_ok; Click])) =
    [VPort 0; VString "woot";
     VString ("Received: {" ++ String dquote "status" ++ String dquote ":"
                ++ String dquote "ok" ++ String dquote "}")%string;
     VString "Sending:  ping"] /\
  uncaught (run Z_toString reliable [Message 0 status_ok; Click]) = [].
Proof.
  split; [reflexivity|]. split; [reflexivity|].
  destruct (scenario_message_then_click Z Z_toString reliable eq_refl eq_refl)
    as [Htrace Huncaught].
  split; [|exact Huncaught].
  unfold calls. rewrite Htrace. reflexivity.
Defined.

(** C6 at an execution made of two disconnections, on the reliable
    platform. *)
Lemma scenario_idle_witness :
  existsb (@is_message Z) [Disconnect 0; Disconnect 1] = false /\
  existsb (@is_click Z) [Disconnect 0; Disconnect 1] = false /\
  filter is_send (calls (run Z_toString reliable [Disconnect 0; Disconnect 1])) = [] /\
  logged (calls (run Z_toString reliable [Disconnect 0; Disconnect 1])) =
    [VPort 0; VString "woot"].
Proof.
  split; [reflexivity|]. split; [reflexivity|].
  destruct (scenario_idle Z Z_toString reliable [Disconnect 0; Disconnect 1]
              eq_refl eq_refl) as (_ & Hsends & _ & Hlog).
  split; [exact Hsends|exact (Hlog eq_refl)].
Defined.

(** C8 where the native application is missing, and where the channel is
    closed. *)
Lemma failures_propagate_unhandled_witness :
  (connect_error (@host_missing Z) [] "beeves_speech_server" =
     Some (PlatformError "No such native application") /\
   calls (run Z_toString host_missing [Click; Message 0 status_ok; Click]) =
     [connectNative_call "beeves_speech_server"] /\
   uncaught (run Z_toString host_missing [Click; Message 0 status_ok; Click]) =
     [PlatformError "No such native application"]) /\
  (connect_error (@channel_closed Z) [] "beeves_speech_server" = None /\
   post_error (@channel_closed Z)
     (trace (run Z_toString channel_closed []) ++ [sending]) 0 (JStr "ping") =
     Some (PlatformError "Attempt to postMessage on disconnected port") /\
   emitted (run Z_toString channel_closed [])
     (dispatch Z_toString channel_closed Click (run Z_toString channel_closed [])) =
     [console_log_call (VString "Sending:  ping");
      postMessage_call 0 (JStr "ping")] /\
   uncaught (dispatch Z_toString channel_closed Click
               (run Z_toString channel_closed [])) =
     [PlatformError "Attempt to postMessage on disconnected port"]).
Proof.
  split.
  - split; [reflexivity|].
    destruct (failures_propagate_unhandled Z Z_toString host_missing
                [Click; Message 0 status_ok; Click]) as (_ & Hconnect & _).
    rewrite (Hconnect _ eq_refl). split; reflexivity.
  - split; [reflexivity|]. split; [reflexivity|].
    destruct (failures_propagate_unhandled Z Z_toString channel_closed [])
      as (_ & _ & Hsend & _).
    rewrite (Hsend _ eq_refl eq_refl). split; reflexivity.
Defined.


